(** * LedEngine: a shallow embedding of the colour pipeline and its state cache

    The C++ class [LedEngine] (LedEngine.h / LedEngine.cpp) converts a
    CIE 1976 UCS target or a colour temperature into three normalised PWM
    levels.  Its arithmetic is IEEE 754 binary32 ([float]) and binary64
    ([double]); both are modelled with the executable specification
    [SpecFloat] of the standard library, every implicit C++ conversion being
    written out.  The only operation of the class without a defined result
    is the conversion of a floating-point value to [int] when the value is
    not a number or does not fit: the setters therefore return an [option]. *)

From Stdlib Require Import ZArith List Bool Lia.
From Stdlib Require Import SpecFloat.
From Stdlib Require Import Decimal Number DecimalZ.
From Stdlib Require Import QArith Lqa.
Import ListNotations.
Local Open Scope Z_scope.

(** ** Floating-point layer *)

Definition float := spec_float.   (* IEEE 754 binary32 *)
Definition double := spec_float.  (* IEEE 754 binary64 *)

(** Conversion of an [int] to [float] / [double]. *)
Definition float_of_int (n : Z) : float := binary_normalize 24 128 n 0 false.
Definition double_of_int (n : Z) : double := binary_normalize 53 1024 n 0 false.

(** Conversions between the two formats: the value is rounded to the
    destination format (exact when widening). *)
Definition double_of_float (x : float) : double :=
  match x with
  | S754_finite s m e => binary_round 53 1024 s m e
  | _ => x
  end.

Definition float_of_double (x : double) : float :=
  match x with
  | S754_finite s m e => binary_round 24 128 s m e
  | _ => x
  end.

(** [static_cast<int>]: truncation toward zero; no result when the operand
    is not a number, infinite, or outside the range of a 32-bit [int]. *)
Definition INT_MIN : Z := - 2 ^ 31.
Definition INT_MAX : Z := 2 ^ 31 - 1.

Definition trunc_mag (m : positive) (e : Z) : Z :=
  match e with
  | Z0 => Zpos m
  | Zpos _ => Zpos m * 2 ^ e
  | Zneg p => Zpos m / 2 ^ Zpos p
  end.

Definition int_of_double (x : double) : option Z :=
  match x with
  | S754_zero _ => Some 0
  | S754_finite s m e =>
      let n := cond_Zopp s (trunc_mag m e) in
      if (INT_MIN <=? n) && (n <=? INT_MAX) then Some n else None
  | _ => None
  end.

(** [uint16_t] assignment: reduction modulo 2^16. *)
Definition to_uint16 (z : Z) : Z := z mod 65536.

(** Decimal literals: a literal [i.f] denotes the binary64 number nearest to
    the rational [if / 10^|f|]; both integers are exact in binary64 for every
    literal of the program, so the correctly rounded quotient is that number. *)
Definition dec_fraction (d : Decimal.decimal) : option (Z * Z) :=
  match d with
  | Decimal.Decimal i f =>
      Some (Z.of_int (Decimal.app_int i f), 10 ^ Z.of_nat (Decimal.nb_digits f))
  | Decimal.DecimalExp _ _ _ => None
  end.

Definition double_literal (n : Number.number) : option spec_float :=
  match n with
  | Number.Decimal d =>
      match dec_fraction d with
      | Some (a, b) => Some (SFdiv 53 1024 (double_of_int a) (double_of_int b))
      | None => None
      end
  | _ => None
  end.

(** A literal used where a [float] is expected is the binary64 literal
    converted to binary32. *)
Definition float_literal (n : Number.number) : option spec_float :=
  option_map float_of_double (double_literal n).

Definition no_print (x : spec_float) : option Number.number := None.

Declare Scope dbl_scope.
Delimit Scope dbl_scope with D.
Declare Scope flt_scope.
Delimit Scope flt_scope with F.

Module DoubleNotations.
  Number Notation spec_float double_literal no_print : dbl_scope.
  Notation "x + y" := (SFadd 53 1024 x y) : dbl_scope.
  Notation "x - y" := (SFsub 53 1024 x y) : dbl_scope.
  Notation "x * y" := (SFmul 53 1024 x y) : dbl_scope.
  Notation "x / y" := (SFdiv 53 1024 x y) : dbl_scope.
  Notation "- x" := (SFopp x) : dbl_scope.
  Notation "x <? y" := (SFltb x y) : dbl_scope.
End DoubleNotations.

Module FloatNotations.
  Number Notation spec_float float_literal no_print : flt_scope.
  Notation "x + y" := (SFadd 24 128 x y) : flt_scope.
  Notation "x - y" := (SFsub 24 128 x y) : flt_scope.
  Notation "x * y" := (SFmul 24 128 x y) : flt_scope.
  Notation "x / y" := (SFdiv 24 128 x y) : flt_scope.
  Notation "- x" := (SFopp x) : flt_scope.
  Notation "x <? y" := (SFltb x y) : flt_scope.
  Notation "x >? y" := (SFltb y x) : flt_scope.
  Notation "x >=? y" := (SFleb y x) : flt_scope.
  Notation "x <=? y" := (SFleb x y) : flt_scope.
End FloatNotations.

Import DoubleNotations FloatNotations.

Definition sqrt (x : double) : double := SFsqrt 53 1024 x.

(** ** Data model (LedEngine.h) *)

Record Luv := mkLuv { L : float; u : float; v : float }.
Record RGB := mkRGB { R : float; G : float; B : float }.

(** [float fit[3]] *)
Record Fit := mkFit { fit0 : float; fit1 : float; fit2 : float }.

Record LedEngine := mkLedEngine {
  redPin_ : Z;
  greenPin_ : Z;
  bluePin_ : Z;
  warmPin_ : Z;
  coldPin_ : Z;
  pwmRange_ : Z;
  onOff_ : bool;
  raw_ : RGB;
  luv_ : Luv;
  T_ : Z;
  redUv_ : Luv;
  greenUv_ : Luv;
  blueUv_ : Luv;
  redLum_ : float;
  greenLum_ : float;
  blueLum_ : float;
  maxLum_ : float;
  redToGreenFit_ : Fit;
  greenToBlueFit_ : Fit;
  blueToRedFit_ : Fit
}.

(** Field assignments. *)
Definition set_onOff (s : LedEngine) (b : bool) : LedEngine :=
  mkLedEngine (redPin_ s) (greenPin_ s) (bluePin_ s) (warmPin_ s) (coldPin_ s)
    (pwmRange_ s) b (raw_ s) (luv_ s) (T_ s) (redUv_ s) (greenUv_ s) (blueUv_ s)
    (redLum_ s) (greenLum_ s) (blueLum_ s) (maxLum_ s)
    (redToGreenFit_ s) (greenToBlueFit_ s) (blueToRedFit_ s).

Definition set_raw (s : LedEngine) (r : RGB) : LedEngine :=
  mkLedEngine (redPin_ s) (greenPin_ s) (bluePin_ s) (warmPin_ s) (coldPin_ s)
    (pwmRange_ s) (onOff_ s) r (luv_ s) (T_ s) (redUv_ s) (greenUv_ s) (blueUv_ s)
    (redLum_ s) (greenLum_ s) (blueLum_ s) (maxLum_ s)
    (redToGreenFit_ s) (greenToBlueFit_ s) (blueToRedFit_ s).

Definition set_luv (s : LedEngine) (l : Luv) : LedEngine :=
  mkLedEngine (redPin_ s) (greenPin_ s) (bluePin_ s) (warmPin_ s) (coldPin_ s)
    (pwmRange_ s) (onOff_ s) (raw_ s) l (T_ s) (redUv_ s) (greenUv_ s) (blueUv_ s)
    (redLum_ s) (greenLum_ s) (blueLum_ s) (maxLum_ s)
    (redToGreenFit_ s) (greenToBlueFit_ s) (blueToRedFit_ s).

Definition set_T (s : LedEngine) (t : Z) : LedEngine :=
  mkLedEngine (redPin_ s) (greenPin_ s) (bluePin_ s) (warmPin_ s) (coldPin_ s)
    (pwmRange_ s) (onOff_ s) (raw_ s) (luv_ s) (to_uint16 t)
    (redUv_ s) (greenUv_ s) (blueUv_ s)
    (redLum_ s) (greenLum_ s) (blueLum_ s) (maxLum_ s)
    (redToGreenFit_ s) (greenToBlueFit_ s) (blueToRedFit_ s).

(** The output boundary: [analogWrite (pin, value)] calls, oldest first. *)
Definition PinWrite := (Z * Z)%type.

(** A member function returning [void]: the new object and the writes it
    made, or nothing when its behaviour is undefined. *)
Definition Cmd := LedEngine -> option (LedEngine * list PinWrite).

Definition andThen (c1 c2 : Cmd) : Cmd := fun s =>
  match c1 s with
  | Some (s1, w1) =>
      match c2 s1 with
      | Some (s2, w2) => Some (s2, w1 ++ w2)
      | None => None
      end
  | None => None
  end.

Notation "c1 ;; c2" := (andThen c1 c2) (at level 61, right associativity).

(** ** Raw projector (LedEngine.cpp, lines 27-88) *)

Definition getOnOff (s : LedEngine) : bool := onOff_ s.
Definition getRaw (s : LedEngine) : RGB := raw_ s.
Definition getCie1976Ucs (s : LedEngine) : Luv := luv_ s.
Definition getColorTemperature (s : LedEngine) : Z := T_ s.

(** [if (x < 0) x = 0.0; if (x > 1) x = 1.0;] *)
Definition limit01 (x : float) : float :=
  let x1 := if (x <? 0)%F then 0.0%F else x in
  if (x1 >? 1)%F then 1.0%F else x1.

(** [static_cast<int>(x * pwmRange_ + 0.5)] *)
Definition quantize (range : Z) (x : float) : option Z :=
  int_of_double (double_of_float (x * float_of_int range)%F + 0.5)%D.

(** [static_cast<float>(pwm) / pwmRange_] *)
Definition dequantize (range : Z) (pwm : Z) : float :=
  (float_of_int pwm / float_of_int range)%F.

Definition unsetLuv : Luv := mkLuv (-1.0)%F (-1.0)%F (-1.0)%F.

Definition setRaw (raw : RGB) : Cmd := fun s =>
  let r := limit01 (R raw) in
  let g := limit01 (G raw) in
  let b := limit01 (B raw) in
  match quantize (pwmRange_ s) r with
  | None => None
  | Some pwmR =>
  match quantize (pwmRange_ s) g with
  | None => None
  | Some pwmG =>
  match quantize (pwmRange_ s) b with
  | None => None
  | Some pwmB =>
      let w := if onOff_ s
               then [(redPin_ s, pwmR); (greenPin_ s, pwmG); (bluePin_ s, pwmB)]
               else [] in
      let s1 := set_raw s (mkRGB (dequantize (pwmRange_ s) pwmR)
                                 (dequantize (pwmRange_ s) pwmG)
                                 (dequantize (pwmRange_ s) pwmB)) in
      let s2 := set_luv s1 unsetLuv in
      Some (set_T s2 (-1), w)
  end end end.

Definition setOnOff (onOff : bool) : Cmd := fun s =>
  let s1 := set_onOff s onOff in
  if onOff_ s1 then setRaw (getRaw s1) s1
  else Some (s1, [(redPin_ s1, 0); (greenPin_ s1, 0); (bluePin_ s1, 0)]).

(** ** Chromaticity solver (LedEngine.cpp, lines 219-253)

    The two closed forms for [dR] are the source expressions, token for
    token, in binary64 arithmetic. *)

Definition dR_direct (PTu PTv P0u P0v P1u P1v P2u P2v Lp1 Lp2 Lq1 : double) : double :=
  ((sqrt ((P0u*P0u)*(P1v*P1v) + (P1u*P1u)*(P0v*P0v) + (P0u*P0u)*(PTv*PTv) + (P0v*P0v)*(PTu*PTu)
    + (P1u*P1u)*(PTv*PTv) + (P1v*P1v)*(PTu*PTu) - Lp1*(P0u*P0u)*(P1v*P1v)*2.0 - Lp1*(P1u*P1u)*(P0v*P0v)*2.0
    - Lp2*(P0u*P0u)*(P1v*P1v)*2.0 - Lp2*(P1u*P1u)*(P0v*P0v)*2.0 + Lq1*(P0u*P0u)*(P1v*P1v)*2.0
    + Lq1*(P1u*P1u)*(P0v*P0v)*2.0 - Lp1*(P0u*P0u)*(PTv*PTv)*2.0 - Lp1*(P0v*P0v)*(PTu*PTu)*2.0
    - Lp2*(P0u*P0u)*(PTv*PTv)*4.0 - Lp2*(P0v*P0v)*(PTu*PTu)*4.0 + Lq1*(P0u*P0u)*(PTv*PTv)*2.0
    + Lq1*(P0v*P0v)*(PTu*PTu)*2.0 + Lq1*(P1u*P1u)*(PTv*PTv)*2.0 + Lq1*(P1v*P1v)*(PTu*PTu)*2.0
    + (Lp1*Lp1)*(P0u*P0u)*(P1v*P1v) + (Lp1*Lp1)*(P1u*P1u)*(P0v*P0v) + (Lp2*Lp2)*(P0u*P0u)*(P1v*P1v)
    + (Lp2*Lp2)*(P1u*P1u)*(P0v*P0v) + (Lp1*Lp1)*(P1u*P1u)*(P2v*P2v) + (Lp1*Lp1)*(P2u*P2u)*(P1v*P1v)
    + (Lp2*Lp2)*(P0u*P0u)*(P2v*P2v) + (Lp2*Lp2)*(P2u*P2u)*(P0v*P0v) + (Lp2*Lp2)*(P1u*P1u)*(P2v*P2v)
    + (Lp2*Lp2)*(P2u*P2u)*(P1v*P1v) + (Lq1*Lq1)*(P0u*P0u)*(P1v*P1v) + (Lq1*Lq1)*(P1u*P1u)*(P0v*P0v)
    + (Lp1*Lp1)*(P0u*P0u)*(PTv*PTv) + (Lp1*Lp1)*(P0v*P0v)*(PTu*PTu) + (Lp1*Lp1)*(P2u*P2u)*(PTv*PTv)
    + (Lp1*Lp1)*(P2v*P2v)*(PTu*PTu) + (Lq1*Lq1)*(P0u*P0u)*(PTv*PTv) + (Lq1*Lq1)*(P0v*P0v)*(PTu*PTu)
    + (Lq1*Lq1)*(P1u*P1u)*(PTv*PTv) + (Lq1*Lq1)*(P1v*P1v)*(PTu*PTu) - P0u*P1u*(PTv*PTv)*2.0
    - P0u*(P1v*P1v)*PTu*2.0 - P1u*(P0v*P0v)*PTu*2.0 - P0v*P1v*(PTu*PTu)*2.0 - (P0u*P0u)*P1v*PTv*2.0
    - (P1u*P1u)*P0v*PTv*2.0 + Lp1*Lp2*(P0u*P0u)*(P1v*P1v)*2.0 + Lp1*Lp2*(P1u*P1u)*(P0v*P0v)*2.0
    + Lp1*Lp2*(P1u*P1u)*(P2v*P2v)*2.0 + Lp1*Lp2*(P2u*P2u)*(P1v*P1v)*2.0 - Lp1*Lq1*(P0u*P0u)*(P1v*P1v)*2.0
    - Lp1*Lq1*(P1u*P1u)*(P0v*P0v)*2.0 - Lp2*Lq1*(P0u*P0u)*(P1v*P1v)*2.0 - Lp2*Lq1*(P1u*P1u)*(P0v*P0v)*2.0
    + Lp1*Lq1*(P0u*P0u)*(PTv*PTv)*2.0 + Lp1*Lq1*(P0v*P0v)*(PTu*PTu)*2.0 - (Lp1*Lp1)*P0u*P2u*(P1v*P1v)*2.0
    - (Lp2*Lp2)*P0u*P1u*(P2v*P2v)*2.0 - (Lp2*Lp2)*P0u*P2u*(P1v*P1v)*2.0 - (Lp2*Lp2)*P1u*P2u*(P0v*P0v)*2.0
    - (Lp1*Lp1)*(P1u*P1u)*P0v*P2v*2.0 - (Lp2*Lp2)*(P0u*P0u)*P1v*P2v*2.0 - (Lp2*Lp2)*(P1u*P1u)*P0v*P2v*2.0
    - (Lp2*Lp2)*(P2u*P2u)*P0v*P1v*2.0 - (Lp1*Lp1)*P1u*(P0v*P0v)*PTu*2.0 - (Lp1*Lp1)*P0u*P2u*(PTv*PTv)*2.0
    - (Lp1*Lp1)*P1u*(P2v*P2v)*PTu*2.0 - (Lp1*Lp1)*(P0u*P0u)*P1v*PTv*2.0 - (Lp1*Lp1)*P0v*P2v*(PTu*PTu)*2.0
    - (Lp1*Lp1)*(P2u*P2u)*P1v*PTv*2.0 - (Lq1*Lq1)*P0u*P1u*(PTv*PTv)*2.0 - (Lq1*Lq1)*P0u*(P1v*P1v)*PTu*2.0
    - (Lq1*Lq1)*P1u*(P0v*P0v)*PTu*2.0 - (Lq1*Lq1)*P0v*P1v*(PTu*PTu)*2.0 - (Lq1*Lq1)*(P0u*P0u)*P1v*PTv*2.0
    - (Lq1*Lq1)*(P1u*P1u)*P0v*PTv*2.0 - P0u*P1u*P0v*P1v*2.0 + P0u*P1u*P0v*PTv*2.0 + P0u*P0v*P1v*PTu*2.0
    + P0u*P1u*P1v*PTv*2.0 + P1u*P0v*P1v*PTu*2.0 - P0u*P0v*PTu*PTv*2.0 + P0u*P1v*PTu*PTv*2.0
    + P1u*P0v*PTu*PTv*2.0 - P1u*P1v*PTu*PTv*2.0 + Lp1*P0u*P2u*(P1v*P1v)*2.0 + Lp2*P0u*P2u*(P1v*P1v)*2.0
    - Lp2*P1u*P2u*(P0v*P0v)*2.0 + Lp1*(P1u*P1u)*P0v*P2v*2.0 - Lp2*(P0u*P0u)*P1v*P2v*2.0 + Lp2*(P1u*P1u)*P0v*P2v*2.0
    + Lp1*P0u*P1u*(PTv*PTv)*2.0 + Lp1*P0u*(P1v*P1v)*PTu*2.0 + Lp1*P1u*(P0v*P0v)*PTu*4.0 + Lp1*P0u*P2u*(PTv*PTv)*2.0
    + Lp2*P0u*P1u*(PTv*PTv)*4.0 + Lp2*P0u*(P1v*P1v)*PTu*2.0 + Lp2*P1u*(P0v*P0v)*PTu*6.0 - Lp1*P1u*P2u*(PTv*PTv)*2.0
    - Lp1*P2u*(P1v*P1v)*PTu*2.0 + Lp2*P0u*P2u*(PTv*PTv)*4.0 + Lp2*P2u*(P0v*P0v)*PTu*2.0 - Lp2*P1u*P2u*(PTv*PTv)*4.0
    - Lp2*P2u*(P1v*P1v)*PTu*2.0 + Lp1*P0v*P1v*(PTu*PTu)*2.0 + Lp1*(P0u*P0u)*P1v*PTv*4.0 + Lp1*(P1u*P1u)*P0v*PTv*2.0
    + Lp1*P0v*P2v*(PTu*PTu)*2.0 + Lp2*P0v*P1v*(PTu*PTu)*4.0 + Lp2*(P0u*P0u)*P1v*PTv*6.0 + Lp2*(P1u*P1u)*P0v*PTv*2.0
    - Lp1*P1v*P2v*(PTu*PTu)*2.0 - Lp1*(P1u*P1u)*P2v*PTv*2.0 + Lp2*P0v*P2v*(PTu*PTu)*4.0 + Lp2*(P0u*P0u)*P2v*PTv*2.0
    - Lp2*P1v*P2v*(PTu*PTu)*4.0 - Lp2*(P1u*P1u)*P2v*PTv*2.0 - Lq1*P0u*P1u*(PTv*PTv)*4.0 - Lq1*P0u*(P1v*P1v)*PTu*4.0
    - Lq1*P1u*(P0v*P0v)*PTu*4.0 - Lq1*P0v*P1v*(PTu*PTu)*4.0 - Lq1*(P0u*P0u)*P1v*PTv*4.0 - Lq1*(P1u*P1u)*P0v*PTv*4.0
    - Lp1*Lp2*P0u*P1u*(P2v*P2v)*2.0 - Lp1*Lp2*P0u*P2u*(P1v*P1v)*4.0 - Lp1*Lp2*P1u*P2u*(P0v*P0v)*2.0
    - Lp1*Lp2*(P0u*P0u)*P1v*P2v*2.0 - Lp1*Lp2*(P1u*P1u)*P0v*P2v*4.0 - Lp1*Lp2*(P2u*P2u)*P0v*P1v*2.0
    + Lp1*Lq1*P0u*P2u*(P1v*P1v)*2.0 + Lp1*Lq1*P1u*P2u*(P0v*P0v)*4.0 + Lp2*Lq1*P0u*P2u*(P1v*P1v)*2.0
    + Lp2*Lq1*P1u*P2u*(P0v*P0v)*2.0 + Lp1*Lq1*(P0u*P0u)*P1v*P2v*4.0 + Lp1*Lq1*(P1u*P1u)*P0v*P2v*2.0
    + Lp2*Lq1*(P0u*P0u)*P1v*P2v*2.0 + Lp2*Lq1*(P1u*P1u)*P0v*P2v*2.0 - Lp1*Lp2*P1u*(P0v*P0v)*PTu*2.0
    + Lp1*Lp2*P0u*(P2v*P2v)*PTu*2.0 + Lp1*Lp2*P2u*(P0v*P0v)*PTu*2.0 - Lp1*Lp2*P1u*(P2v*P2v)*PTu*2.0
    - Lp1*Lp2*(P0u*P0u)*P1v*PTv*2.0 + Lp1*Lp2*(P0u*P0u)*P2v*PTv*2.0 + Lp1*Lp2*(P2u*P2u)*P0v*PTv*2.0
    - Lp1*Lp2*(P2u*P2u)*P1v*PTv*2.0 - Lp1*Lq1*P0u*P1u*(PTv*PTv)*2.0 + Lp1*Lq1*P0u*(P1v*P1v)*PTu*2.0
    - Lp1*Lq1*P0u*P2u*(PTv*PTv)*2.0 - Lp1*Lq1*P2u*(P0v*P0v)*PTu*4.0 + Lp2*Lq1*P0u*(P1v*P1v)*PTu*2.0
    + Lp2*Lq1*P1u*(P0v*P0v)*PTu*2.0 + Lp1*Lq1*P1u*P2u*(PTv*PTv)*2.0 - Lp1*Lq1*P2u*(P1v*P1v)*PTu*2.0
    - Lp2*Lq1*P2u*(P0v*P0v)*PTu*2.0 - Lp2*Lq1*P2u*(P1v*P1v)*PTu*2.0 - Lp1*Lq1*P0v*P1v*(PTu*PTu)*2.0
    + Lp1*Lq1*(P1u*P1u)*P0v*PTv*2.0 - Lp1*Lq1*P0v*P2v*(PTu*PTu)*2.0 - Lp1*Lq1*(P0u*P0u)*P2v*PTv*4.0
    + Lp2*Lq1*(P0u*P0u)*P1v*PTv*2.0 + Lp2*Lq1*(P1u*P1u)*P0v*PTv*2.0 + Lp1*Lq1*P1v*P2v*(PTu*PTu)*2.0
    - Lp1*Lq1*(P1u*P1u)*P2v*PTv*2.0 - Lp2*Lq1*(P0u*P0u)*P2v*PTv*2.0 - Lp2*Lq1*(P1u*P1u)*P2v*PTv*2.0
    - (Lp1*Lp1)*P0u*P1u*P0v*P1v*2.0 - (Lp2*Lp2)*P0u*P1u*P0v*P1v*2.0 + (Lp1*Lp1)*P0u*P1u*P1v*P2v*2.0
    + (Lp1*Lp1)*P1u*P2u*P0v*P1v*2.0 + (Lp2*Lp2)*P0u*P1u*P0v*P2v*2.0 + (Lp2*Lp2)*P0u*P2u*P0v*P1v*2.0
    + (Lp2*Lp2)*P0u*P1u*P1v*P2v*2.0 - (Lp2*Lp2)*P0u*P2u*P0v*P2v*2.0 + (Lp2*Lp2)*P1u*P2u*P0v*P1v*2.0
    - (Lp1*Lp1)*P1u*P2u*P1v*P2v*2.0 + (Lp2*Lp2)*P0u*P2u*P1v*P2v*2.0 + (Lp2*Lp2)*P1u*P2u*P0v*P2v*2.0
    - (Lp2*Lp2)*P1u*P2u*P1v*P2v*2.0 - (Lq1*Lq1)*P0u*P1u*P0v*P1v*2.0 + (Lp1*Lp1)*P0u*P1u*P0v*PTv*2.0
    + (Lp1*Lp1)*P0u*P0v*P1v*PTu*2.0 - (Lp1*Lp1)*P0u*P1u*P2v*PTv*2.0 + (Lp1*Lp1)*P0u*P2u*P1v*PTv*4.0
    - (Lp1*Lp1)*P0u*P1v*P2v*PTu*2.0 - (Lp1*Lp1)*P1u*P2u*P0v*PTv*2.0 + (Lp1*Lp1)*P1u*P0v*P2v*PTu*4.0
    - (Lp1*Lp1)*P2u*P0v*P1v*PTu*2.0 + (Lp1*Lp1)*P1u*P2u*P2v*PTv*2.0 + (Lp1*Lp1)*P2u*P1v*P2v*PTu*2.0
    + (Lq1*Lq1)*P0u*P1u*P0v*PTv*2.0 + (Lq1*Lq1)*P0u*P0v*P1v*PTu*2.0 + (Lq1*Lq1)*P0u*P1u*P1v*PTv*2.0
    + (Lq1*Lq1)*P1u*P0v*P1v*PTu*2.0 - (Lp1*Lp1)*P0u*P0v*PTu*PTv*2.0 + (Lp1*Lp1)*P0u*P2v*PTu*PTv*2.0
    + (Lp1*Lp1)*P2u*P0v*PTu*PTv*2.0 - (Lp1*Lp1)*P2u*P2v*PTu*PTv*2.0 - (Lq1*Lq1)*P0u*P0v*PTu*PTv*2.0
    + (Lq1*Lq1)*P0u*P1v*PTu*PTv*2.0 + (Lq1*Lq1)*P1u*P0v*PTu*PTv*2.0 - (Lq1*Lq1)*P1u*P1v*PTu*PTv*2.0
    + Lp1*P0u*P1u*P0v*P1v*4.0 + Lp2*P0u*P1u*P0v*P1v*4.0 - Lp1*P0u*P1u*P1v*P2v*2.0 - Lp1*P1u*P2u*P0v*P1v*2.0
    + Lp2*P0u*P1u*P0v*P2v*2.0 + Lp2*P0u*P2u*P0v*P1v*2.0 - Lp2*P0u*P1u*P1v*P2v*2.0 - Lp2*P1u*P2u*P0v*P1v*2.0
    - Lq1*P0u*P1u*P0v*P1v*4.0 - Lp1*P0u*P1u*P0v*PTv*4.0 - Lp1*P0u*P0v*P1v*PTu*4.0 - Lp1*P0u*P1u*P1v*PTv*2.0
    - Lp1*P1u*P0v*P1v*PTu*2.0 - Lp2*P0u*P1u*P0v*PTv*6.0 - Lp2*P0u*P0v*P1v*PTu*6.0 + Lp1*P0u*P1u*P2v*PTv*2.0
    - Lp1*P0u*P2u*P1v*PTv*4.0 + Lp1*P0u*P1v*P2v*PTu*2.0 + Lp1*P1u*P2u*P0v*PTv*2.0 - Lp1*P1u*P0v*P2v*PTu*4.0
    + Lp1*P2u*P0v*P1v*PTu*2.0 - Lp2*P0u*P1u*P1v*PTv*2.0 - Lp2*P0u*P2u*P0v*PTv*2.0 - Lp2*P0u*P0v*P2v*PTu*2.0
    - Lp2*P1u*P0v*P1v*PTu*2.0 + Lp1*P1u*P2u*P1v*PTv*2.0 + Lp1*P1u*P1v*P2v*PTu*2.0 - Lp2*P0u*P2u*P1v*PTv*6.0
    + Lp2*P0u*P1v*P2v*PTu*6.0 + Lp2*P1u*P2u*P0v*PTv*6.0 - Lp2*P1u*P0v*P2v*PTu*6.0 + Lp2*P1u*P2u*P1v*PTv*2.0
    + Lp2*P1u*P1v*P2v*PTu*2.0 + Lq1*P0u*P1u*P0v*PTv*4.0 + Lq1*P0u*P0v*P1v*PTu*4.0 + Lq1*P0u*P1u*P1v*PTv*4.0
    + Lq1*P1u*P0v*P1v*PTu*4.0 + Lp1*P0u*P0v*PTu*PTv*4.0 - Lp1*P0u*P1v*PTu*PTv*2.0 - Lp1*P1u*P0v*PTu*PTv*2.0
    + Lp2*P0u*P0v*PTu*PTv*8.0 - Lp1*P0u*P2v*PTu*PTv*2.0 - Lp1*P2u*P0v*PTu*PTv*2.0 - Lp2*P0u*P1v*PTu*PTv*4.0
    - Lp2*P1u*P0v*PTu*PTv*4.0 + Lp1*P1u*P2v*PTu*PTv*2.0 + Lp1*P2u*P1v*PTu*PTv*2.0 - Lp2*P0u*P2v*PTu*PTv*4.0
    - Lp2*P2u*P0v*PTu*PTv*4.0 + Lp2*P1u*P2v*PTu*PTv*4.0 + Lp2*P2u*P1v*PTu*PTv*4.0 - Lq1*P0u*P0v*PTu*PTv*4.0
    + Lq1*P0u*P1v*PTu*PTv*4.0 + Lq1*P1u*P0v*PTu*PTv*4.0 - Lq1*P1u*P1v*PTu*PTv*4.0 - Lp1*Lp2*P0u*P1u*P0v*P1v*4.0
    + Lp1*Lp2*P0u*P1u*P0v*P2v*2.0 + Lp1*Lp2*P0u*P2u*P0v*P1v*2.0 + Lp1*Lp2*P0u*P1u*P1v*P2v*4.0
    + Lp1*Lp2*P1u*P2u*P0v*P1v*4.0 + Lp1*Lp2*P0u*P2u*P1v*P2v*2.0 + Lp1*Lp2*P1u*P2u*P0v*P2v*2.0
    - Lp1*Lp2*P1u*P2u*P1v*P2v*4.0 + Lp1*Lq1*P0u*P1u*P0v*P1v*4.0 - Lp1*Lq1*P0u*P1u*P0v*P2v*4.0
    - Lp1*Lq1*P0u*P2u*P0v*P1v*4.0 + Lp2*Lq1*P0u*P1u*P0v*P1v*4.0 - Lp1*Lq1*P0u*P1u*P1v*P2v*2.0
    - Lp1*Lq1*P1u*P2u*P0v*P1v*2.0 - Lp2*Lq1*P0u*P1u*P0v*P2v*2.0 - Lp2*Lq1*P0u*P2u*P0v*P1v*2.0
    - Lp2*Lq1*P0u*P1u*P1v*P2v*2.0 - Lp2*Lq1*P1u*P2u*P0v*P1v*2.0 + Lp1*Lp2*P0u*P1u*P0v*PTv*2.0
    + Lp1*Lp2*P0u*P0v*P1v*PTu*2.0 - Lp1*Lp2*P0u*P2u*P0v*PTv*2.0 - Lp1*Lp2*P0u*P0v*P2v*PTu*2.0
    - Lp1*Lp2*P0u*P1u*P2v*PTv*2.0 + Lp1*Lp2*P0u*P2u*P1v*PTv*4.0 - Lp1*Lp2*P0u*P1v*P2v*PTu*2.0
    - Lp1*Lp2*P1u*P2u*P0v*PTv*2.0 + Lp1*Lp2*P1u*P0v*P2v*PTu*4.0 - Lp1*Lp2*P2u*P0v*P1v*PTu*2.0
    - Lp1*Lp2*P0u*P2u*P2v*PTv*2.0 - Lp1*Lp2*P2u*P0v*P2v*PTu*2.0 + Lp1*Lp2*P1u*P2u*P2v*PTv*2.0
    + Lp1*Lp2*P2u*P1v*P2v*PTu*2.0 - Lp1*Lq1*P0u*P1u*P1v*PTv*2.0 + Lp1*Lq1*P0u*P2u*P0v*PTv*4.0
    + Lp1*Lq1*P0u*P0v*P2v*PTu*4.0 - Lp1*Lq1*P1u*P0v*P1v*PTu*2.0 - Lp2*Lq1*P0u*P1u*P0v*PTv*2.0
    - Lp2*Lq1*P0u*P0v*P1v*PTu*2.0 + Lp1*Lq1*P0u*P1u*P2v*PTv*6.0 - Lp1*Lq1*P0u*P1v*P2v*PTu*6.0
    - Lp1*Lq1*P1u*P2u*P0v*PTv*6.0 + Lp1*Lq1*P2u*P0v*P1v*PTu*6.0 - Lp2*Lq1*P0u*P1u*P1v*PTv*2.0
    + Lp2*Lq1*P0u*P2u*P0v*PTv*2.0 + Lp2*Lq1*P0u*P0v*P2v*PTu*2.0 - Lp2*Lq1*P1u*P0v*P1v*PTu*2.0
    + Lp1*Lq1*P1u*P2u*P1v*PTv*2.0 + Lp1*Lq1*P1u*P1v*P2v*PTu*2.0 + Lp2*Lq1*P0u*P1u*P2v*PTv*4.0
    - Lp2*Lq1*P0u*P2u*P1v*PTv*2.0 - Lp2*Lq1*P0u*P1v*P2v*PTu*2.0 - Lp2*Lq1*P1u*P2u*P0v*PTv*2.0
    - Lp2*Lq1*P1u*P0v*P2v*PTu*2.0 + Lp2*Lq1*P2u*P0v*P1v*PTu*4.0 + Lp2*Lq1*P1u*P2u*P1v*PTv*2.0
    + Lp2*Lq1*P1u*P1v*P2v*PTu*2.0 - Lp1*Lq1*P0u*P0v*PTu*PTv*4.0 + Lp1*Lq1*P0u*P1v*PTu*PTv*2.0
    + Lp1*Lq1*P1u*P0v*PTu*PTv*2.0 + Lp1*Lq1*P0u*P2v*PTu*PTv*2.0 + Lp1*Lq1*P2u*P0v*PTu*PTv*2.0
    - Lp1*Lq1*P1u*P2v*PTu*PTv*2.0 - Lp1*Lq1*P2u*P1v*PTu*PTv*2.0)*(1.0 / 2.0) + P0u*P1v*(1.0 / 2.0)
    - P1u*P0v*(1.0 / 2.0) - P0u*PTv*(1.0 / 2.0) + P0v*PTu*(1.0 / 2.0) + P1u*PTv*(1.0 / 2.0)
    - P1v*PTu*(1.0 / 2.0) - Lp1*P0u*P1v*(1.0 / 2.0) + Lp1*P1u*P0v*(1.0 / 2.0) + Lp1*P0u*P2v
    - Lp1*P2u*P0v - Lp2*P0u*P1v*(1.0 / 2.0) + Lp2*P1u*P0v*(1.0 / 2.0) - Lp1*P1u*P2v*(1.0 / 2.0)
    + Lp1*P2u*P1v*(1.0 / 2.0) + Lp2*P0u*P2v*(1.0 / 2.0) - Lp2*P2u*P0v*(1.0 / 2.0) - Lp2*P1u*P2v*(1.0 / 2.0)
    + Lp2*P2u*P1v*(1.0 / 2.0) + Lq1*P0u*P1v*(1.0 / 2.0) - Lq1*P1u*P0v*(1.0 / 2.0) - Lp1*P0u*PTv*(1.0 / 2.0)
    + Lp1*P0v*PTu*(1.0 / 2.0) + Lp1*P2u*PTv*(1.0 / 2.0) - Lp1*P2v*PTu*(1.0 / 2.0) - Lq1*P0u*PTv*(1.0 / 2.0)
    + Lq1*P0v*PTu*(1.0 / 2.0) + Lq1*P1u*PTv*(1.0 / 2.0) - Lq1*P1v*PTu*(1.0 / 2.0)) / (P0u*P1v
    - P1u*P0v - P0u*PTv + P0v*PTu + P1u*PTv - P1v*PTu - Lp1*P0u*P1v + Lp1*P1u*P0v + Lp1*P0u*P2v
    - Lp1*P2u*P0v - Lp1*P1u*P2v + Lp1*P2u*P1v))%D.

Definition dR_complement (PTu PTv P0u P0v P1u P1v P2u P2v Lp1 Lp2 Lq1 : double) : double :=
  (1.0 - (sqrt (Lp1*Lp1*P0u*P0u*P2v*P2v - 2 * Lp1*Lp1*P0u*P0u*P2v*PTv + Lp1*Lp1*P0u*P0u*PTv*PTv
    - 2 * Lp1*Lp1*P0u*P2u*P0v*P2v + 2 * Lp1*Lp1*P0u*P2u*P0v*PTv + 2 * Lp1*Lp1*P0u*P2u*P2v*PTv
    - 2 * Lp1*Lp1*P0u*P2u*PTv*PTv + 2 * Lp1*Lp1*P0u*P0v*P2v*PTu - 2 * Lp1*Lp1*P0u*P0v*PTu*PTv
    - 2 * Lp1*Lp1*P0u*P2v*P2v*PTu + 2 * Lp1*Lp1*P0u*P2v*PTu*PTv + Lp1*Lp1*P2u*P2u*P0v*P0v - 2 * Lp1*Lp1*P2u*P2u*P0v*PTv
    + Lp1*Lp1*P2u*P2u*PTv*PTv - 2 * Lp1*Lp1*P2u*P0v*P0v*PTu + 2 * Lp1*Lp1*P2u*P0v*P2v*PTu + 2 * Lp1*Lp1*P2u*P0v*PTu*PTv
    - 2 * Lp1*Lp1*P2u*P2v*PTu*PTv + Lp1*Lp1*P0v*P0v*PTu*PTu - 2 * Lp1*Lp1*P0v*P2v*PTu*PTu + Lp1*Lp1*P2v*P2v*PTu*PTu
    - 2 * Lp1*Lp2*P0u*P0u*P1v*P2v + 2 * Lp1*Lp2*P0u*P0u*P1v*PTv + 2 * Lp1*Lp2*P0u*P0u*P2v*P2v
    - 2 * Lp1*Lp2*P0u*P0u*P2v*PTv + 2 * Lp1*Lp2*P0u*P1u*P0v*P2v - 2 * Lp1*Lp2*P0u*P1u*P0v*PTv
    - 2 * Lp1*Lp2*P0u*P1u*P2v*P2v + 2 * Lp1*Lp2*P0u*P1u*P2v*PTv + 2 * Lp1*Lp2*P0u*P2u*P0v*P1v
    - 4 * Lp1*Lp2*P0u*P2u*P0v*P2v + 2 * Lp1*Lp2*P0u*P2u*P0v*PTv + 2 * Lp1*Lp2*P0u*P2u*P1v*P2v
    - 4 * Lp1*Lp2*P0u*P2u*P1v*PTv + 2 * Lp1*Lp2*P0u*P2u*P2v*PTv - 2 * Lp1*Lp2*P0u*P0v*P1v*PTu
    + 2 * Lp1*Lp2*P0u*P0v*P2v*PTu + 2 * Lp1*Lp2*P0u*P1v*P2v*PTu - 2 * Lp1*Lp2*P0u*P2v*P2v*PTu
    - 2 * Lp1*Lp2*P1u*P2u*P0v*P0v + 2 * Lp1*Lp2*P1u*P2u*P0v*P2v + 2 * Lp1*Lp2*P1u*P2u*P0v*PTv
    - 2 * Lp1*Lp2*P1u*P2u*P2v*PTv + 2 * Lp1*Lp2*P1u*P0v*P0v*PTu - 4 * Lp1*Lp2*P1u*P0v*P2v*PTu
    + 2 * Lp1*Lp2*P1u*P2v*P2v*PTu + 2 * Lp1*Lp2*P2u*P2u*P0v*P0v - 2 * Lp1*Lp2*P2u*P2u*P0v*P1v
    - 2 * Lp1*Lp2*P2u*P2u*P0v*PTv + 2 * Lp1*Lp2*P2u*P2u*P1v*PTv - 2 * Lp1*Lp2*P2u*P0v*P0v*PTu
    + 2 * Lp1*Lp2*P2u*P0v*P1v*PTu + 2 * Lp1*Lp2*P2u*P0v*P2v*PTu - 2 * Lp1*Lp2*P2u*P1v*P2v*PTu
    - 2 * Lp1*Lq1*P0u*P0u*P1v*P2v + 2 * Lp1*Lq1*P0u*P0u*P1v*PTv + 2 * Lp1*Lq1*P0u*P0u*P2v*PTv
    - 2 * Lp1*Lq1*P0u*P0u*PTv*PTv + 2 * Lp1*Lq1*P0u*P1u*P0v*P2v - 2 * Lp1*Lq1*P0u*P1u*P0v*PTv
    - 2 * Lp1*Lq1*P0u*P1u*P2v*PTv + 2 * Lp1*Lq1*P0u*P1u*PTv*PTv + 2 * Lp1*Lq1*P0u*P2u*P0v*P1v
    - 2 * Lp1*Lq1*P0u*P2u*P0v*PTv - 2 * Lp1*Lq1*P0u*P2u*P1v*PTv + 2 * Lp1*Lq1*P0u*P2u*PTv*PTv
    - 2 * Lp1*Lq1*P0u*P0v*P1v*PTu - 2 * Lp1*Lq1*P0u*P0v*P2v*PTu + 4 * Lp1*Lq1*P0u*P0v*PTu*PTv
    + 4 * Lp1*Lq1*P0u*P1v*P2v*PTu - 2 * Lp1*Lq1*P0u*P1v*PTu*PTv - 2 * Lp1*Lq1*P0u*P2v*PTu*PTv
    - 2 * Lp1*Lq1*P1u*P2u*P0v*P0v + 4 * Lp1*Lq1*P1u*P2u*P0v*PTv - 2 * Lp1*Lq1*P1u*P2u*PTv*PTv
    + 2 * Lp1*Lq1*P1u*P0v*P0v*PTu - 2 * Lp1*Lq1*P1u*P0v*P2v*PTu - 2 * Lp1*Lq1*P1u*P0v*PTu*PTv
    + 2 * Lp1*Lq1*P1u*P2v*PTu*PTv + 2 * Lp1*Lq1*P2u*P0v*P0v*PTu - 2 * Lp1*Lq1*P2u*P0v*P1v*PTu
    - 2 * Lp1*Lq1*P2u*P0v*PTu*PTv + 2 * Lp1*Lq1*P2u*P1v*PTu*PTv - 2 * Lp1*Lq1*P0v*P0v*PTu*PTu
    + 2 * Lp1*Lq1*P0v*P1v*PTu*PTu + 2 * Lp1*Lq1*P0v*P2v*PTu*PTu - 2 * Lp1*Lq1*P1v*P2v*PTu*PTu
    + Lp2*Lp2*P0u*P0u*P1v*P1v - 2 * Lp2*Lp2*P0u*P0u*P1v*P2v + Lp2*Lp2*P0u*P0u*P2v*P2v - 2 * Lp2*Lp2*P0u*P1u*P0v*P1v
    + 2 * Lp2*Lp2*P0u*P1u*P0v*P2v + 2 * Lp2*Lp2*P0u*P1u*P1v*P2v - 2 * Lp2*Lp2*P0u*P1u*P2v*P2v
    + 2 * Lp2*Lp2*P0u*P2u*P0v*P1v - 2 * Lp2*Lp2*P0u*P2u*P0v*P2v - 2 * Lp2*Lp2*P0u*P2u*P1v*P1v
    + 2 * Lp2*Lp2*P0u*P2u*P1v*P2v + Lp2*Lp2*P1u*P1u*P0v*P0v - 2 * Lp2*Lp2*P1u*P1u*P0v*P2v + Lp2*Lp2*P1u*P1u*P2v*P2v
    - 2 * Lp2*Lp2*P1u*P2u*P0v*P0v + 2 * Lp2*Lp2*P1u*P2u*P0v*P1v + 2 * Lp2*Lp2*P1u*P2u*P0v*P2v
    - 2 * Lp2*Lp2*P1u*P2u*P1v*P2v + Lp2*Lp2*P2u*P2u*P0v*P0v - 2 * Lp2*Lp2*P2u*P2u*P0v*P1v + Lp2*Lp2*P2u*P2u*P1v*P1v
    - 2 * Lp2*Lq1*P0u*P0u*P1v*P1v + 2 * Lp2*Lq1*P0u*P0u*P1v*P2v + 2 * Lp2*Lq1*P0u*P0u*P1v*PTv
    - 2 * Lp2*Lq1*P0u*P0u*P2v*PTv + 4 * Lp2*Lq1*P0u*P1u*P0v*P1v - 2 * Lp2*Lq1*P0u*P1u*P0v*P2v
    - 2 * Lp2*Lq1*P0u*P1u*P0v*PTv - 2 * Lp2*Lq1*P0u*P1u*P1v*P2v - 2 * Lp2*Lq1*P0u*P1u*P1v*PTv
    + 4 * Lp2*Lq1*P0u*P1u*P2v*PTv - 2 * Lp2*Lq1*P0u*P2u*P0v*P1v + 2 * Lp2*Lq1*P0u*P2u*P0v*PTv
    + 2 * Lp2*Lq1*P0u*P2u*P1v*P1v - 2 * Lp2*Lq1*P0u*P2u*P1v*PTv - 2 * Lp2*Lq1*P0u*P0v*P1v*PTu
    + 2 * Lp2*Lq1*P0u*P0v*P2v*PTu + 2 * Lp2*Lq1*P0u*P1v*P1v*PTu - 2 * Lp2*Lq1*P0u*P1v*P2v*PTu
    - 2 * Lp2*Lq1*P1u*P1u*P0v*P0v + 2 * Lp2*Lq1*P1u*P1u*P0v*P2v + 2 * Lp2*Lq1*P1u*P1u*P0v*PTv
    - 2 * Lp2*Lq1*P1u*P1u*P2v*PTv + 2 * Lp2*Lq1*P1u*P2u*P0v*P0v - 2 * Lp2*Lq1*P1u*P2u*P0v*P1v
    - 2 * Lp2*Lq1*P1u*P2u*P0v*PTv + 2 * Lp2*Lq1*P1u*P2u*P1v*PTv + 2 * Lp2*Lq1*P1u*P0v*P0v*PTu
    - 2 * Lp2*Lq1*P1u*P0v*P1v*PTu - 2 * Lp2*Lq1*P1u*P0v*P2v*PTu + 2 * Lp2*Lq1*P1u*P1v*P2v*PTu
    - 2 * Lp2*Lq1*P2u*P0v*P0v*PTu + 4 * Lp2*Lq1*P2u*P0v*P1v*PTu - 2 * Lp2*Lq1*P2u*P1v*P1v*PTu
    + 4 * Lp2*P0u*P0u*P1v*P2v - 4 * Lp2*P0u*P0u*P1v*PTv - 4 * Lp2*P0u*P0u*P2v*PTv + 4 * Lp2*P0u*P0u*PTv*PTv
    - 4 * Lp2*P0u*P1u*P0v*P2v + 4 * Lp2*P0u*P1u*P0v*PTv + 4 * Lp2*P0u*P1u*P2v*PTv - 4 * Lp2*P0u*P1u*PTv*PTv
    - 4 * Lp2*P0u*P2u*P0v*P1v + 4 * Lp2*P0u*P2u*P0v*PTv + 4 * Lp2*P0u*P2u*P1v*PTv - 4 * Lp2*P0u*P2u*PTv*PTv
    + 4 * Lp2*P0u*P0v*P1v*PTu + 4 * Lp2*P0u*P0v*P2v*PTu - 8 * Lp2*P0u*P0v*PTu*PTv - 8 * Lp2*P0u*P1v*P2v*PTu
    + 4 * Lp2*P0u*P1v*PTu*PTv + 4 * Lp2*P0u*P2v*PTu*PTv + 4 * Lp2*P1u*P2u*P0v*P0v - 8 * Lp2*P1u*P2u*P0v*PTv
    + 4 * Lp2*P1u*P2u*PTv*PTv - 4 * Lp2*P1u*P0v*P0v*PTu + 4 * Lp2*P1u*P0v*P2v*PTu + 4 * Lp2*P1u*P0v*PTu*PTv
    - 4 * Lp2*P1u*P2v*PTu*PTv - 4 * Lp2*P2u*P0v*P0v*PTu + 4 * Lp2*P2u*P0v*P1v*PTu + 4 * Lp2*P2u*P0v*PTu*PTv
    - 4 * Lp2*P2u*P1v*PTu*PTv + 4 * Lp2*P0v*P0v*PTu*PTu - 4 * Lp2*P0v*P1v*PTu*PTu - 4 * Lp2*P0v*P2v*PTu*PTu
    + 4 * Lp2*P1v*P2v*PTu*PTu + Lq1*Lq1*P0u*P0u*P1v*P1v - 2 * Lq1*Lq1*P0u*P0u*P1v*PTv + Lq1*Lq1*P0u*P0u*PTv*PTv
    - 2 * Lq1*Lq1*P0u*P1u*P0v*P1v + 2 * Lq1*Lq1*P0u*P1u*P0v*PTv + 2 * Lq1*Lq1*P0u*P1u*P1v*PTv
    - 2 * Lq1*Lq1*P0u*P1u*PTv*PTv + 2 * Lq1*Lq1*P0u*P0v*P1v*PTu - 2 * Lq1*Lq1*P0u*P0v*PTu*PTv
    - 2 * Lq1*Lq1*P0u*P1v*P1v*PTu + 2 * Lq1*Lq1*P0u*P1v*PTu*PTv + Lq1*Lq1*P1u*P1u*P0v*P0v - 2 * Lq1*Lq1*P1u*P1u*P0v*PTv
    + Lq1*Lq1*P1u*P1u*PTv*PTv - 2 * Lq1*Lq1*P1u*P0v*P0v*PTu + 2 * Lq1*Lq1*P1u*P0v*P1v*PTu + 2 * Lq1*Lq1*P1u*P0v*PTu*PTv
    - 2 * Lq1*Lq1*P1u*P1v*PTu*PTv + Lq1*Lq1*P0v*P0v*PTu*PTu - 2 * Lq1*Lq1*P0v*P1v*PTu*PTu + Lq1*Lq1*P1v*P1v*PTu*PTu)
    + 2 * P0u*P1v - 2 * P1u*P0v - 2 * P0u*PTv + 2 * P0v*PTu + 2 * P1u*PTv - 2 * P1v*PTu - 2 * Lp1*P0u*P1v
    + 2 * Lp1*P1u*P0v + Lp1*P0u*P2v - Lp1*P2u*P0v - Lp2*P0u*P1v + Lp2*P1u*P0v - 2 * Lp1*P1u*P2v
    + 2 * Lp1*P2u*P1v + Lp2*P0u*P2v - Lp2*P2u*P0v - Lp2*P1u*P2v + Lp2*P2u*P1v + Lq1*P0u*P1v
    - Lq1*P1u*P0v + Lp1*P0u*PTv - Lp1*P0v*PTu - Lp1*P2u*PTv + Lp1*P2v*PTu - Lq1*P0u*PTv + Lq1*P0v*PTu
    + Lq1*P1u*PTv - Lq1*P1v*PTu) / (2 * (P0u*P1v - P1u*P0v - P0u*PTv + P0v*PTu + P1u*PTv - P1v*PTu
    - Lp1*P0u*P1v + Lp1*P1u*P0v + Lp1*P0u*P2v - Lp1*P2u*P0v - Lp1*P1u*P2v + Lp1*P2u*P1v)))%D.

Definition findCoefficient_ (PT P0 P1 P2 : Luv) (rightHandFit leftHandFit : Fit) : float :=
  let PTu := double_of_float (u PT) in
  let PTv := double_of_float (v PT) in
  let P0u := double_of_float (u P0) in
  let P0v := double_of_float (v P0) in
  let P1u := double_of_float (u P1) in
  let P1v := double_of_float (v P1) in
  let P2u := double_of_float (u P2) in
  let P2v := double_of_float (v P2) in
  let Rp1 := double_of_float (fit0 rightHandFit) in
  let Rp2 := double_of_float (fit1 rightHandFit) in
  let Rq1 := double_of_float (fit2 rightHandFit) in
  let Lp1 := double_of_float (fit0 leftHandFit) in
  let Lp2 := double_of_float (fit1 leftHandFit) in
  let Lq1 := double_of_float (fit2 leftHandFit) in
  let dR :=
    if (Lp1 <? 0)%D
    then dR_direct PTu PTv P0u P0v P1u P1v P2u P2v Lp1 Lp2 Lq1
    else dR_complement PTu PTv P0u P0v P1u P1v P2u P2v Lp1 Lp2 Lq1 in
  let level :=
    if (Rp1 <? 0)%D
    then ((Rp1*dR + Rp2) / (dR + Rq1))%D
    else ((Rp1*(1 - dR) + Rp2) / ((1 - dR) + Rq1))%D in
  float_of_double level.

(** ** UCS setter with luminance normalisation and gamut clamp
    (LedEngine.cpp, lines 90-137) *)

(** The raw triple handed to [setRaw], split at the gamut clamp. *)
Definition scaledRaw (s : LedEngine) (target : Luv) : RGB :=
  let rawR := findCoefficient_ target (redUv_ s) (greenUv_ s) (blueUv_ s)
                (redToGreenFit_ s) (greenToBlueFit_ s) in
  let rawG := findCoefficient_ target (greenUv_ s) (blueUv_ s) (redUv_ s)
                (greenToBlueFit_ s) (blueToRedFit_ s) in
  let rawB := findCoefficient_ target (blueUv_ s) (redUv_ s) (greenUv_ s)
                (blueToRedFit_ s) (redToGreenFit_ s) in
  let Y := ((rawR * redLum_ s + rawG * greenLum_ s + rawB * blueLum_ s) / maxLum_ s)%F in
  let Y_target := ((L target + 16) / 116)%F in
  let Y_target := (Y_target * Y_target * Y_target)%F in
  let C := (Y_target / Y)%F in
  mkRGB (rawR * C)%F (rawG * C)%F (rawB * C)%F.

Definition maxRawOf (raw : RGB) : float :=
  let maxRaw := R raw in
  let maxRaw := if (G raw >? maxRaw)%F then G raw else maxRaw in
  if (B raw >? maxRaw)%F then B raw else maxRaw.

(** [x * (1.0 / maxRaw)], computed in binary64 and stored in a [float]. *)
Definition rescale (maxRaw x : float) : float :=
  float_of_double (double_of_float x * (1.0 / double_of_float maxRaw))%D.

Definition gamutClamp (raw : RGB) : RGB :=
  let maxRaw := maxRawOf raw in
  if (maxRaw >? 1)%F
  then mkRGB (rescale maxRaw (R raw)) (rescale maxRaw (G raw)) (rescale maxRaw (B raw))
  else raw.

Definition setCie1976Ucs (target : Luv) : Cmd := fun s =>
  let l := mkLuv (L target) (u target) (v target) in
  let l := if (L l <? 0)%F then mkLuv 0%F (u l) (v l) else l in
  let s1 := set_luv s l in
  setRaw (gamutClamp (scaledRaw s1 target)) s1.

(** ** Colour-temperature mapper (LedEngine.cpp, lines 139-166) *)

Definition zscore (T : Z) : double := ((double_of_int T - 5500.0) / 2599.0)%D.

Definition uOfZscore (x : double) : double :=
  let x2 := (x*x)%D in
  let x3 := (x*x*x)%D in
  (((-0.0001747)*x3 + 0.1833*x2 + 0.872*x + 1.227) / (x2 + 4.813*x + 5.933))%D.

Definition vOfZscore (x : double) : double :=
  let x2 := (x*x)%D in
  let x3 := (x*x*x)%D in
  let x4 := (x*x*x*x)%D in
  ((0.000311*x4 + 0.0009124*x3 + 0.3856*x2 + 1.873*x + 2.619) / (x2 + 4.323*x + 5.485))%D.

Definition temperatureTarget (cachedL : float) (L : float) (T : Z) : Luv :=
  let x := zscore T in
  let luv := mkLuv cachedL (float_of_double (uOfZscore x)) (float_of_double (vOfZscore x)) in
  if (L >? 0)%F then mkLuv L (u luv) (v luv) else luv.

Definition setColorTemperature (lightness : float) (T : Z) : Cmd := fun s =>
  match setCie1976Ucs (temperatureTarget (L (luv_ s)) lightness T) s with
  | Some (s1, w) => Some (set_T s1 T, w)
  | None => None
  end.

(** ** Calibration store (LedEngine.cpp, lines 168-199) *)

Record Calibration := mkCalibration {
  cal_redUv : Luv;
  cal_greenUv : Luv;
  cal_blueUv : Luv;
  cal_redLum : float;
  cal_greenLum : float;
  cal_blueLum : float;
  cal_redToGreenFit : Fit;
  cal_greenToBlueFit : Fit;
  cal_blueToRedFit : Fit
}.

(** The assignments of [calibrate]: only [u] and [v] of the primaries are
    copied, and [maxLum_] is not an argument. *)
Definition storeCalibration (s : LedEngine) (c : Calibration) : LedEngine :=
  mkLedEngine (redPin_ s) (greenPin_ s) (bluePin_ s) (warmPin_ s) (coldPin_ s)
    (pwmRange_ s) (onOff_ s) (raw_ s) (luv_ s) (T_ s)
    (mkLuv (L (redUv_ s)) (u (cal_redUv c)) (v (cal_redUv c)))
    (mkLuv (L (greenUv_ s)) (u (cal_greenUv c)) (v (cal_greenUv c)))
    (mkLuv (L (blueUv_ s)) (u (cal_blueUv c)) (v (cal_blueUv c)))
    (cal_redLum c) (cal_greenLum c) (cal_blueLum c) (maxLum_ s)
    (cal_redToGreenFit c) (cal_greenToBlueFit c) (cal_blueToRedFit c).

Definition calibrate (c : Calibration) : Cmd := fun s =>
  let s1 := storeCalibration s c in
  if T_ s1 >=? 1000 then setColorTemperature (L (luv_ s1)) (T_ s1) s1
  else if (L (luv_ s1) >=? 0)%F then setCie1976Ucs (luv_ s1) s1
  else Some (s1, []).

(** ** Construction (LedEngine.cpp, lines 4-25; defaults of LedEngine.h) *)

Definition defaultCalibration : Calibration :=
  mkCalibration
    (mkLuv 100%F 0.5535%F 0.5170%F)
    (mkLuv 100%F 0.0373%F 0.5856%F)
    (mkLuv 100%F 0.1679%F 0.1153%F)
    0.5%F 1.0%F 0.75%F
    (mkFit 2.9658%F 0.0%F 1.9658%F)
    (mkFit 1.3587%F 0.0%F 0.3587%F)
    (mkFit (-0.2121)%F 0.2121%F 0.2121%F).

(** [mem] is the storage the object is built in: the members without a
    default initialiser ([onOff_], [raw_], [luv_], [T_]) start with whatever
    it holds. *)
Definition construct (mem : LedEngine) (redPin greenPin bluePin warmPin coldPin pwmRange : Z)
  : option (LedEngine * list PinWrite) :=
  let c := defaultCalibration in
  let s0 := mkLedEngine redPin greenPin bluePin warmPin coldPin (to_uint16 pwmRange)
              (onOff_ mem) (raw_ mem) (luv_ mem) (T_ mem)
              (cal_redUv c) (cal_greenUv c) (cal_blueUv c)
              (cal_redLum c) (cal_greenLum c) (cal_blueLum c) 2.25%F
              (cal_redToGreenFit c) (cal_greenToBlueFit c) (cal_blueToRedFit c) in
  match (setOnOff false ;; setColorTemperature 50%F 1900) s0 with
  | Some (s1, w) =>
      Some (s1, [(redPin, 0); (greenPin, 0); (bluePin, 0); (warmPin, 0); (coldPin, 0)] ++ w)
  | None => None
  end.

Definition blank : LedEngine :=
  mkLedEngine 0 0 0 0 0 0 false (mkRGB 0%F 0%F 0%F) (mkLuv 0%F 0%F 0%F) 0
    (mkLuv 0%F 0%F 0%F) (mkLuv 0%F 0%F 0%F) (mkLuv 0%F 0%F 0%F) 0%F 0%F 0%F 0%F
    (mkFit 0%F 0%F 0%F) (mkFit 0%F 0%F 0%F) (mkFit 0%F 0%F 0%F).

(** ** The two fits of the colour-temperature mapper as polynomial syntax

    [pexp] is the syntax of the numerators and denominators of lines 153-154;
    [denoteD] evaluates it with the binary64 operations of the program,
    [denoteQ] reads the same syntax over the rationals. *)

Inductive pexp : Type :=
| PX
| PLit (num : Z) (den : positive)
| POpp (a : pexp)
| PAdd (a b : pexp)
| PMul (a b : pexp).

Fixpoint denoteD (e : pexp) (x : double) : double :=
  match e with
  | PX => x
  | PLit n d => SFdiv 53 1024 (double_of_int n) (double_of_int (Zpos d))
  | POpp a => SFopp (denoteD a x)
  | PAdd a b => SFadd 53 1024 (denoteD a x) (denoteD b x)
  | PMul a b => SFmul 53 1024 (denoteD a x) (denoteD b x)
  end.

Fixpoint denoteQ (e : pexp) (x : Q) : Q :=
  match e with
  | PX => x
  | PLit n d => n # d
  | POpp a => (- denoteQ a x)%Q
  | PAdd a b => (denoteQ a x + denoteQ b x)%Q
  | PMul a b => (denoteQ a x * denoteQ b x)%Q
  end.

Definition PX2 : pexp := PMul PX PX.
Definition PX3 : pexp := PMul (PMul PX PX) PX.
Definition PX4 : pexp := PMul (PMul (PMul PX PX) PX) PX.

Definition uNumerator : pexp :=
  PAdd (PAdd (PAdd (PMul (POpp (PLit 1747 10000000)) PX3)
                   (PMul (PLit 1833 10000) PX2))
             (PMul (PLit 872 1000) PX))
       (PLit 1227 1000).

Definition uDenominator : pexp :=
  PAdd (PAdd PX2 (PMul (PLit 4813 1000) PX)) (PLit 5933 1000).

Definition vNumerator : pexp :=
  PAdd (PAdd (PAdd (PAdd (PMul (PLit 311 1000000) PX4)
                         (PMul (PLit 9124 10000000) PX3))
                   (PMul (PLit 3856 10000) PX2))
             (PMul (PLit 1873 1000) PX))
       (PLit 2619 1000).

Definition vDenominator : pexp :=
  PAdd (PAdd PX2 (PMul (PLit 4323 1000) PX)) (PLit 5485 1000).

(** Polynomials over the rationals by their coefficients, constant first. *)
Fixpoint peval (coefficients : list Q) (x : Q) : Q :=
  match coefficients with
  | [] => 0%Q
  | c :: rest => (c + x * peval rest x)%Q
  end.

(** [f] is a polynomial function of degree exactly [n]. *)
Definition polynomialOfDegree (f : Q -> Q) (n : nat) : Prop :=
  exists coefficients : list Q,
    List.length coefficients = S n /\
    (~ Qeq (List.last coefficients 0%Q) 0%Q) /\
    (forall x : Q, Qeq (f x) (peval coefficients x)).

(** "Quartic over quadratic". *)
Definition quarticOverQuadratic (numerator denominator : pexp) : Prop :=
  polynomialOfDegree (denoteQ numerator) 4 /\
  polynomialOfDegree (denoteQ denominator) 2.

(** The value [setCie1976Ucs] stores in [luv_] before solving. *)
Definition storedTarget (target : Luv) : Luv :=
  if (L target <? 0)%F then mkLuv 0%F (u target) (v target) else target.

(** ** Predicates of the specification *)

(** [0 <= x && x <= 1], with the comparisons of the program. *)
Definition in01 (x : float) : bool := (0 <=? x)%F && (x <=? 1)%F.

Definition rawInRange (raw : RGB) : bool :=
  in01 (R raw) && in01 (G raw) && in01 (B raw).

(** A [float] is a binary32 datum: a zero, an infinity, a NaN, or a finite
    number in canonical form. *)
Definition validFloat (x : float) : Prop := valid_binary 24 128 x = true.

Definition validRGB (raw : RGB) : Prop :=
  validFloat (R raw) /\ validFloat (G raw) /\ validFloat (B raw).

(** A [float] that is a real number: neither NaN nor infinite. *)
Definition isReal (x : float) : Prop :=
  validFloat x /\
  match x with
  | S754_zero _ | S754_finite _ _ _ => True
  | _ => False
  end.

Definition realRGB (raw : RGB) : Prop :=
  isReal (R raw) /\ isReal (G raw) /\ isReal (B raw).

Definition validCalibration (c : Calibration) : Prop :=
  validFloat (cal_redLum c) /\ validFloat (cal_greenLum c) /\ validFloat (cal_blueLum c).

(** An object whose PWM range is a maximum duty cycle (at least 1, a
    [uint16_t]) and whose [float] members that enter the arithmetic are
    binary32 data. *)
Definition wellFormed (s : LedEngine) : Prop :=
  1 <= pwmRange_ s <= 65535 /\
  validRGB (raw_ s) /\
  validFloat (L (luv_ s)) /\
  validFloat (redLum_ s) /\ validFloat (greenLum_ s) /\ validFloat (blueLum_ s) /\
  validFloat (maxLum_ s).

(** The mutating operations. *)
Inductive Mutation : Type :=
| SetRaw (raw : RGB)
| SetCie1976Ucs (target : Luv)
| SetColorTemperature (lightness : float) (T : Z)
| SetOnOff (onOff : bool)
| Calibrate (c : Calibration).

Definition mutate (m : Mutation) : Cmd :=
  match m with
  | SetRaw raw => setRaw raw
  | SetCie1976Ucs target => setCie1976Ucs target
  | SetColorTemperature lightness T => setColorTemperature lightness T
  | SetOnOff onOff => setOnOff onOff
  | Calibrate c => calibrate c
  end.

Definition validMutation (m : Mutation) : Prop :=
  match m with
  | SetRaw raw => validRGB raw
  | SetCie1976Ucs target => validFloat (L target)
  | SetColorTemperature lightness T => validFloat lightness
  | SetOnOff _ => True
  | Calibrate c => validCalibration c
  end.

(** ** Calibration accessors (LedEngine.cpp, lines 201-217) *)

Definition getRedUv (s : LedEngine) : Luv := redUv_ s.
Definition getGreenUv (s : LedEngine) : Luv := greenUv_ s.
Definition getBlueUv (s : LedEngine) : Luv := blueUv_ s.
Definition getRedLum (s : LedEngine) : float := redLum_ s.
Definition getGreenLum (s : LedEngine) : float := greenLum_ s.
Definition getBlueLum (s : LedEngine) : float := blueLum_ s.
Definition getRedToGreenFit (s : LedEngine) : Fit := redToGreenFit_ s.
Definition getGreenToBlueFit (s : LedEngine) : Fit := greenToBlueFit_ s.
Definition getBlueToRedFit (s : LedEngine) : Fit := blueToRedFit_ s.

(** The raw state is a triple of duty cycles divided by the PWM range. *)
Definition quantised (s : LedEngine) : Prop :=
  exists pwmR pwmG pwmB,
    0 <= pwmR <= pwmRange_ s /\ 0 <= pwmG <= pwmRange_ s /\ 0 <= pwmB <= pwmRange_ s /\
    raw_ s = mkRGB (dequantize (pwmRange_ s) pwmR) (dequantize (pwmRange_ s) pwmG)
                   (dequantize (pwmRange_ s) pwmB).

(** The objects a program can hold: built by the constructor with a PWM
    range of at least 1, then mutated through the public setters. *)
Inductive reachable : LedEngine -> Prop :=
| reachable_construct (mem : LedEngine) (redPin greenPin bluePin warmPin coldPin pwmRange : Z)
    (s : LedEngine) (w : list PinWrite) :
    1 <= pwmRange <= 65535 ->
    construct mem redPin greenPin bluePin warmPin coldPin pwmRange = Some (s, w) ->
    reachable s
| reachable_mutate (m : Mutation) (s s' : LedEngine) (w : list PinWrite) :
    reachable s -> validMutation m -> mutate m s = Some (s', w) -> reachable s'.

(** The three PWM writes of one projection. *)
Definition rgbWrites (s : LedEngine) (pwmR pwmG pwmB : Z) : list PinWrite :=
  [(redPin_ s, pwmR); (greenPin_ s, pwmG); (bluePin_ s, pwmB)].

(** A test bench: the object built on pins 12, 13, 14, 4, 5 with a 10-bit
    PWM range, then switched on. *)
Definition run (c : Cmd) (s : LedEngine) : LedEngine :=
  match c s with Some (s', _) => s' | None => s end.

Definition writes (c : Cmd) (s : LedEngine) : list PinWrite :=
  match c s with Some (_, w) => w | None => [] end.

Definition bench0 : LedEngine :=
  match construct blank 12 13 14 4 5 1023 with Some (s, _) => s | None => blank end.

Definition bench : LedEngine := run (setOnOff true) bench0.

Definition white : RGB := mkRGB 1.0%F 1.0%F 1.0%F.

Definition warmTarget : Luv := temperatureTarget 50%F 50%F 2700.

(** * Properties *)

(** ** The cache discipline of [setRaw] *)

Lemma setRaw_inv (raw : RGB) (s s' : LedEngine) (w : list PinWrite) :
  setRaw raw s = Some (s', w) ->
  exists pwmR pwmG pwmB,
    quantize (pwmRange_ s) (limit01 (R raw)) = Some pwmR /\
    quantize (pwmRange_ s) (limit01 (G raw)) = Some pwmG /\
    quantize (pwmRange_ s) (limit01 (B raw)) = Some pwmB /\
    w = (if onOff_ s
         then [(redPin_ s, pwmR); (greenPin_ s, pwmG); (bluePin_ s, pwmB)]
         else []) /\
    s' = set_T (set_luv (set_raw s (mkRGB (dequantize (pwmRange_ s) pwmR)
                                          (dequantize (pwmRange_ s) pwmG)
                                          (dequantize (pwmRange_ s) pwmB)))
                        unsetLuv) (-1).
Proof.
  unfold setRaw. intros H.
  destruct (quantize (pwmRange_ s) (limit01 (R raw))) as [pr|]; [|discriminate].
  destruct (quantize (pwmRange_ s) (limit01 (G raw))) as [pg|]; [|discriminate].
  destruct (quantize (pwmRange_ s) (limit01 (B raw))) as [pb|]; [|discriminate].
  injection H as <- <-. exists pr, pg, pb. repeat split; reflexivity.
Qed.

Lemma setRaw_T (raw : RGB) (s s' : LedEngine) (w : list PinWrite) :
  setRaw raw s = Some (s', w) -> T_ s' = 65535.
Proof.
  intros H. destruct (setRaw_inv _ _ _ _ H) as (pr & pg & pb & _ & _ & _ & _ & ->).
  reflexivity.
Qed.

Lemma setRaw_luv (raw : RGB) (s s' : LedEngine) (w : list PinWrite) :
  setRaw raw s = Some (s', w) -> luv_ s' = unsetLuv.
Proof.
  intros H. destruct (setRaw_inv _ _ _ _ H) as (pr & pg & pb & _ & _ & _ & _ & ->).
  reflexivity.
Qed.

Lemma setRaw_frame (raw : RGB) (s s' : LedEngine) (w : list PinWrite) :
  setRaw raw s = Some (s', w) ->
  pwmRange_ s' = pwmRange_ s /\ onOff_ s' = onOff_ s /\
  redPin_ s' = redPin_ s /\ greenPin_ s' = greenPin_ s /\ bluePin_ s' = bluePin_ s /\
  redLum_ s' = redLum_ s /\ greenLum_ s' = greenLum_ s /\ blueLum_ s' = blueLum_ s /\
  maxLum_ s' = maxLum_ s.
Proof.
  intros H. destruct (setRaw_inv _ _ _ _ H) as (pr & pg & pb & _ & _ & _ & _ & ->).
  repeat split; reflexivity.
Qed.

Lemma setCie1976Ucs_unfold (target : Luv) (s : LedEngine) :
  setCie1976Ucs target s =
  setRaw (gamutClamp (scaledRaw (set_luv s (storedTarget target)) target))
         (set_luv s (storedTarget target)).
Proof.
  unfold setCie1976Ucs, storedTarget. cbn [L u v].
  destruct target as [l a b]; cbn [L u v]. reflexivity.
Qed.

(** C3. The sentinel [T_ = -1] is stored in a [uint16_t]: after [setRaw], and
    after [setCie1976Ucs] which ends in [setRaw], [getColorTemperature] reads
    65535, and [calibrate] then takes its colour-temperature branch at
    65535 K. *)
Theorem unset_temperature_is_65535 (s s' : LedEngine) (w : list PinWrite) :
  (exists raw, setRaw raw s = Some (s', w)) \/
  (exists target, setCie1976Ucs target s = Some (s', w)) ->
  to_uint16 (-1) = 65535 /\
  getColorTemperature s' = 65535 /\
  (getColorTemperature s' >=? 1000) = true /\
  forall c, calibrate c s' =
            setColorTemperature (L (luv_ s')) 65535 (storeCalibration s' c).
Proof.
  intros H.
  assert (HT : T_ s' = 65535).
  { destruct H as [[raw H] | [target H]].
    - exact (setRaw_T _ _ _ _ H).
    - rewrite setCie1976Ucs_unfold in H. exact (setRaw_T _ _ _ _ H). }
  split; [reflexivity|]. split; [exact HT|]. split.
  - unfold getColorTemperature. rewrite HT. reflexivity.
  - intros c. unfold calibrate.
    change (T_ (storeCalibration s' c)) with (T_ s'). rewrite HT. reflexivity.
Qed.

Lemma unset_temperature_is_65535_witness :
  setRaw white bench = Some (run (setRaw white) bench, writes (setRaw white) bench) /\
  getColorTemperature (run (setRaw white) bench) = 65535.
Proof.
  split; [vm_compute; reflexivity|].
  apply (unset_temperature_is_65535 bench (run (setRaw white) bench)
           (writes (setRaw white) bench)).
  left. exists white. vm_compute. reflexivity.
Defined.

(** C4. Whatever the target, once [setCie1976Ucs] has returned,
    [getCie1976Ucs] reads the sentinel (-1, -1, -1): the target is stored in
    [luv_] first, and the closing call of [setRaw] overwrites it. *)
Theorem setCie1976Ucs_leaves_sentinel (target : Luv) (s s' : LedEngine) (w : list PinWrite) :
  setCie1976Ucs target s = Some (s', w) ->
  getCie1976Ucs s' = mkLuv (-1.0)%F (-1.0)%F (-1.0)%F /\
  exists raw, luv_ (set_luv s (storedTarget target)) = storedTarget target /\
              setRaw raw (set_luv s (storedTarget target)) = Some (s', w).
Proof.
  rewrite setCie1976Ucs_unfold. intros H. split.
  - exact (setRaw_luv _ _ _ _ H).
  - eexists. split; [reflexivity | exact H].
Qed.

Lemma setCie1976Ucs_leaves_sentinel_witness :
  setCie1976Ucs warmTarget bench =
    Some (run (setCie1976Ucs warmTarget) bench, writes (setCie1976Ucs warmTarget) bench) /\
  getCie1976Ucs (run (setCie1976Ucs warmTarget) bench) = mkLuv (-1.0)%F (-1.0)%F (-1.0)%F.
Proof.
  split; [vm_compute; reflexivity|].
  apply (setCie1976Ucs_leaves_sentinel warmTarget bench
           (run (setCie1976Ucs warmTarget) bench)
           (writes (setCie1976Ucs warmTarget) bench)).
  vm_compute. reflexivity.
Defined.

(** C9. For a lightness [L > 0] and a temperature [T] (a [uint16_t]), after
    [setColorTemperature (L, T)] has returned, [getColorTemperature] reads
    exactly [T]: the cache is written after the inner [setCie1976Ucs]. *)
Theorem setColorTemperature_caches_T
  (lightness : float) (T : Z) (s s' : LedEngine) (w : list PinWrite) :
  (lightness >? 0)%F = true ->
  0 <= T < 65536 ->
  setColorTemperature lightness T s = Some (s', w) ->
  getColorTemperature s' = T /\
  exists s1, setCie1976Ucs (temperatureTarget (L (luv_ s)) lightness T) s = Some (s1, w) /\
             T_ s1 = 65535 /\ s' = set_T s1 T.
Proof.
  intros _ HT H. unfold setColorTemperature in H.
  destruct (setCie1976Ucs (temperatureTarget (L (luv_ s)) lightness T) s)
    as [[s1 w1]|] eqn:E; [|discriminate].
  injection H as <- <-. split.
  - unfold getColorTemperature, set_T, to_uint16. cbn [T_].
    apply Z.mod_small. exact HT.
  - exists s1. split; [reflexivity|]. split; [|reflexivity].
    rewrite setCie1976Ucs_unfold in E. exact (setRaw_T _ _ _ _ E).
Qed.

Lemma setColorTemperature_caches_T_witness :
  setColorTemperature 50%F 2700 bench =
    Some (run (setColorTemperature 50%F 2700) bench,
          writes (setColorTemperature 50%F 2700) bench) /\
  getColorTemperature (run (setColorTemperature 50%F 2700) bench) = 2700.
Proof.
  split; [vm_compute; reflexivity|].
  apply (setColorTemperature_caches_T 50%F 2700 bench
           (run (setColorTemperature 50%F 2700) bench)
           (writes (setColorTemperature 50%F 2700) bench)).
  - vm_compute. reflexivity.
  - lia.
  - vm_compute. reflexivity.
Defined.

(** ** Recalibration *)

(** The third branch of [calibrate]: nothing is solved and nothing written
    when [T_] is below 1000 and the cached lightness is not [>= 0]. *)
Lemma calibrate_untouched (c : Calibration) (s : LedEngine) :
  T_ s < 1000 ->
  (L (luv_ s) >=? 0)%F = false ->
  calibrate c s = Some (storeCalibration s c, []) /\
  getRaw (storeCalibration s c) = getRaw s.
Proof.
  intros HT HL. unfold calibrate.
  change (T_ (storeCalibration s c)) with (T_ s).
  change (luv_ (storeCalibration s c)) with (luv_ s).
  destruct (Z.geb_spec (T_ s) 1000) as [H|H]; [lia|].
  rewrite HL. split; reflexivity.
Qed.

(** C1 (code_bug). On the bench, after [setColorTemperature (50, 2700)] the
    cached lightness is the sentinel -1, so [calibrate] solves for lightness
    -1 instead of 50: with the calibration unchanged the raw state drops from
    (317, 259, 8) / 1023 to (4, 3, 0) / 1023, whereas
    [setColorTemperature (50, 2700)] under that calibration gives back
    (317, 259, 8) / 1023. *)
Theorem calibrate_after_temperature_drops_lightness :
  let s := run (setColorTemperature 50%F 2700) bench in
  getRaw s = mkRGB (dequantize 1023 317) (dequantize 1023 259) (dequantize 1023 8) /\
  getCie1976Ucs s = unsetLuv /\ getColorTemperature s = 2700 /\
  calibrate defaultCalibration s =
    setColorTemperature (-1.0)%F 2700 (storeCalibration s defaultCalibration) /\
  option_map (fun r => getRaw (fst r)) (calibrate defaultCalibration s) =
    Some (mkRGB (dequantize 1023 4) (dequantize 1023 3) (dequantize 1023 0)) /\
  option_map (fun r => getRaw (fst r))
    (setColorTemperature 50%F 2700 (storeCalibration s defaultCalibration)) =
    Some (mkRGB (dequantize 1023 317) (dequantize 1023 259) (dequantize 1023 8)).
Proof.
  cbv zeta. repeat split; vm_compute; reflexivity.
Qed.

(** C2 (code_bug). On the bench, right after [setRaw (1, 1, 1)] both caches
    hold their sentinels, yet [calibrate] solves for 65535 K: the raw state
    goes from (1, 1, 1) to (2, 4, 0) / 1023 and three duty cycles are
    written. *)
Theorem calibrate_after_setRaw_resolves :
  let s := run (setRaw white) bench in
  getRaw s = white /\
  getCie1976Ucs s = unsetLuv /\ getColorTemperature s = 65535 /\
  option_map (fun r => getRaw (fst r)) (calibrate defaultCalibration s) =
    Some (mkRGB (dequantize 1023 2) (dequantize 1023 4) (dequantize 1023 0)) /\
  option_map snd (calibrate defaultCalibration s) = Some [(12, 2); (13, 4); (14, 0)].
Proof.
  cbv zeta. repeat split; vm_compute; reflexivity.
Qed.

(** ** The colour-temperature fits *)

Lemma uOfZscore_syntax (x : double) :
  uOfZscore x = SFdiv 53 1024 (denoteD uNumerator x) (denoteD uDenominator x).
Proof. reflexivity. Qed.

Lemma vOfZscore_syntax (x : double) :
  vOfZscore x = SFdiv 53 1024 (denoteD vNumerator x) (denoteD vDenominator x).
Proof. reflexivity. Qed.

Lemma temperatureTarget_uv (cachedL lightness : float) (T : Z) :
  u (temperatureTarget cachedL lightness T) = float_of_double (uOfZscore (zscore T)) /\
  v (temperatureTarget cachedL lightness T) = float_of_double (vOfZscore (zscore T)).
Proof.
  unfold temperatureTarget. destruct (lightness >? 0)%F; split; reflexivity.
Qed.


(** A polynomial function of degree 3 is not one of degree 4. *)
Lemma uNumerator_not_quartic : ~ polynomialOfDegree (denoteQ uNumerator) 4.
Proof.
  intros (l & Hlen & Hlead & Heq).
  destruct l as [|c0 [|c1 [|c2 [|c3 [|c4 [|c5 l]]]]]]; try discriminate Hlen.
  cbn [last] in Hlead. apply Hlead.
  pose proof (Heq 0%Q) as H0. pose proof (Heq 1%Q) as H1.
  pose proof (Heq (-1)%Q) as H2. pose proof (Heq 2%Q) as H3.
  pose proof (Heq (-2)%Q) as H4.
  cbn [denoteQ uNumerator PX2 PX3 peval] in H0, H1, H2, H3, H4.
  lra.
Qed.

(** C10, as stated, fails: the numerator of [u] has no [x^4] term, so [u] is
    not quartic over quadratic. *)
Lemma u_is_not_quartic_over_quadratic :
  ~ quarticOverQuadratic uNumerator uDenominator.
Proof.
  intros [H _]. exact (uNumerator_not_quartic H).
Qed.

(** C10, amended. The z-score is [(T - 5500) / 2599]; [u] is a cubic over a
    quadratic and [v] a quartic over a quadratic in it, the two quotients
    having different numerators and different denominators. *)
Theorem temperature_fits_shape :
  (forall T : Z, zscore T = ((double_of_int T - 5500.0) / 2599.0)%D) /\
  (forall x : double,
     uOfZscore x = (denoteD uNumerator x / denoteD uDenominator x)%D /\
     vOfZscore x = (denoteD vNumerator x / denoteD vDenominator x)%D) /\
  polynomialOfDegree (denoteQ uNumerator) 3 /\
  polynomialOfDegree (denoteQ uDenominator) 2 /\
  polynomialOfDegree (denoteQ vNumerator) 4 /\
  polynomialOfDegree (denoteQ vDenominator) 2 /\
  ~ Qeq (denoteQ uNumerator 0) (denoteQ vNumerator 0) /\
  ~ Qeq (denoteQ uDenominator 0) (denoteQ vDenominator 0).
Proof.
  split; [reflexivity|]. split; [split; reflexivity|].
  split; [|split; [|split; [|split]]].
  - exists [1227 # 1000; 872 # 1000; 1833 # 10000; - (1747 # 10000000)]%Q.
    split; [reflexivity|]. split; [cbn [last]; lra|].
    intros x. cbn [denoteQ uNumerator PX2 PX3 peval]. ring.
  - exists [5933 # 1000; 4813 # 1000; 1]%Q.
    split; [reflexivity|]. split; [cbn [last]; lra|].
    intros x. cbn [denoteQ uDenominator PX2 peval]. ring.
  - exists [2619 # 1000; 1873 # 1000; 3856 # 10000; 9124 # 10000000; 311 # 1000000]%Q.
    split; [reflexivity|]. split; [cbn [last]; lra|].
    intros x. cbn [denoteQ vNumerator PX2 PX3 PX4 peval]. ring.
  - exists [5485 # 1000; 4323 # 1000; 1]%Q.
    split; [reflexivity|]. split; [cbn [last]; lra|].
    intros x. cbn [denoteQ vDenominator PX2 peval]. ring.
  - split; cbn [denoteQ uNumerator vNumerator uDenominator vDenominator PX2 PX3 PX4]; lra.
Qed.
